(** * micro/server: bootstrap and lifecycle of the micro network server

    A shallow embedding of [server/server.go]: the package-level
    configuration variables, [srv.start], [srv.stop], [run] and [Commands],
    together with the properties of configuration resolution, plugin
    initialisation, the start/run/stop sequence and command assembly. *)

From stdpp Require Import gmap strings list.
From Stdlib Require Import ZArith Lia.

Set Warnings "-register-all".

Local Open Scope Z_scope.
Local Open Scope string_scope.
Local Open Scope list_scope.

(** ** Go values *)

(** Go's [error]: [None] is [nil], [Some msg] an error whose [Error()] text
    is [msg]. *)
Definition error := option string.

(** [int64] wrap-around (two's complement), as Go's arithmetic on
    [time.Duration] has it. *)
Definition wrap64 (z : Z) : Z := (z + 2 ^ 63) `mod` 2 ^ 64 - 2 ^ 63.

Module time.
(** [time.Duration] is an [int64] count of nanoseconds. *)
Definition Duration (n : Z) : Z := wrap64 n.
Definition Nanosecond : Z := 1.
Definition Second : Z := 1000000000 * Nanosecond.
(** [a * b] on [time.Duration]. *)
Definition mul (a b : Z) : Z := wrap64 (a * b).
End time.

(** ** The command-line layer ([github.com/micro/cli/v2]) *)

Module cli.
(** A [*cli.Context] holds the values of the flags that are set; a lookup
    of a flag that is not set gives the zero value of its type. *)
Record Context := mkContext {
  strings : gmap string string;
  ints : gmap string Z
}.

(** [ctx.String(name)] *)
Definition String (ctx : Context) (name : string) : string :=
  default "" (strings ctx !! name).

(** [ctx.Int(name)]; Go's [int] is taken to be 64 bits wide. *)
Definition Int (ctx : Context) (name : string) : Z :=
  default 0 (ints ctx !! name).

(** [cli.StringFlag]; the only kind of flag this package declares. *)
Record Flag := StringFlag {
  flagName : string;
  flagUsage : string;
  flagEnvVars : list string
}.
End cli.

(** ** Process state and the ledger of calls to collaborators *)

(** The package-level variables [Name], [Address], [Router], [Network]. *)
Record Globals := mkGlobals {
  Name : string;
  Address : string;
  Router : string;
  Network : string
}.

(** The [var ( ... )] block: the declared defaults. *)
Definition defaults : Globals :=
  {| Name := "go.micro.server";
     Address := ":8087";
     Router := ":9093";
     Network := "local" |}.

(** Every call that leaves the package, in the order it is made. *)
Inductive Call :=
| LogInit (service : string)
| LogInfo (msg : string)
| LogErrorf (msg : string)
| PluginInit (plugin : string)
| CtxString (key : string)
| CtxInt (key : string)
| MicroNewService (name address : string) (ttl interval : Z)
| RouterNewRouter (id address network registry : string)
| GrpcNewTransport (addrs : string)
| ServerNewServer
| RouterStart
| ServiceRun
| RouterStop
| OsExit (code : Z).

Record State := mkState {
  globals : Globals;
  ledger : list Call
}.

(** What the collaborators answer: the outcome of the router's [Start] and
    [Stop], of the service's blocking [Run], and the identity and registry
    that the constructed service reports. *)
Record World := mkWorld {
  router_Start : error;
  service_Run : error;
  router_Stop : error;
  server_Id : string;
  client_Registry : string
}.

(** ** A state monad with process exit *)

Inductive Outcome (A : Type) :=
| Ret (a : A)
| Exited (code : Z).
Arguments Ret {A} a.
Arguments Exited {A} code.

Definition M (A : Type) : Type := State -> Outcome A * State.

Definition ret {A} (a : A) : M A := fun s => (Ret a, s).

Definition bind {A B} (m : M A) (k : A -> M B) : M B :=
  fun s =>
    match m s with
    | (Ret a, s') => k a s'
    | (Exited c, s') => (Exited c, s')
    end.

Declare Scope go_scope.
Delimit Scope go_scope with go.
Notation "x <- c1 ;; c2" := (bind c1 (fun x => c2))
  (at level 100, c1 at next level, right associativity) : go_scope.
Notation "c1 ;; c2" := (bind c1 (fun _ => c2))
  (at level 100, right associativity) : go_scope.
Local Open Scope go_scope.

(** Record a call in the ledger. *)
Definition call (c : Call) : M unit :=
  fun s => (Ret tt, {| globals := globals s; ledger := ledger s ++ [c] |}).

(** [os.Exit(code)]: the call is recorded and nothing after it runs. *)
Definition os_Exit {A} (code : Z) : M A :=
  fun s => (Exited code, {| globals := globals s; ledger := ledger s ++ [OsExit code] |}).

Definition get : M Globals := fun s => (Ret (globals s), s).

Definition put (g : Globals) : M unit :=
  fun s => (Ret tt, {| globals := g; ledger := ledger s |}).

(** [ctx.String(key)] as a recorded call. *)
Definition ctx_String (ctx : cli.Context) (key : string) : M string :=
  call (CtxString key) ;; ret (cli.String ctx key).

(** [ctx.Int(key)] as a recorded call. *)
Definition ctx_Int (ctx : cli.Context) (key : string) : M Z :=
  call (CtxInt key) ;; ret (cli.Int ctx key).

(** [if c { body }] *)
Definition when (c : bool) (body : M unit) : M unit :=
  if c then body else ret tt.

(** [for _, x := range l { body x }] *)
Fixpoint for_range {A} (l : list A) (body : A -> M unit) : M unit :=
  match l with
  | [] => ret tt
  | x :: l' => body x ;; for_range l' body
  end.

(** Go's [len(s) > 0] on a string. *)
Definition nonempty (s : string) : bool := (0 <? String.length s)%nat.

(** ** Collaborator handles *)

(** [*cli.Command].  [cmdAction] is the command's [Action]. *)
Inductive Command := mkCommand {
  cmdName : string;
  cmdUsage : string;
  cmdFlags : list cli.Flag;
  cmdSubcommands : list Command;
  cmdAction : cli.Context -> M error
}.

(** The plugin interface as this package uses it: [String], [Flags],
    [Commands] and [Init].  What [Init] returns is an [error]. *)
Record Plugin := mkPlugin {
  plugin_String : string;
  plugin_Flags : list cli.Flag;
  plugin_Commands : list Command;
  plugin_Init : cli.Context -> error
}.

(** [micro.Service], as built by [micro.NewService]. *)
Record Service := mkService {
  svc_Name : string;
  svc_Address : string;
  svc_RegisterTTL : Z;
  svc_RegisterInterval : Z;
  svc_Id : string;
  svc_Registry : string
}.

(** [router.Router], as built by [router.NewRouter]. *)
Record RouterH := mkRouter {
  rt_Id : string;
  rt_Address : string;
  rt_Network : string;
  rt_Registry : string
}.

(** [server.Server] over a transport bound to [sv_Transport]. *)
Record ServerH := mkServer {
  sv_Transport : string
}.

(** [type srv struct] *)
Record srv := mkSrv {
  router : RouterH;
  network : ServerH
}.

(** [micro.Option]; [run] receives them and does not use them. *)
Definition MicroOption := string.

(** ** The package's functions *)

Section Server.
(** The collaborators' answers and the registered plugins
    (the value of [Plugins()]), in registration order. *)
Variable w : World.
Variable Plugins : list Plugin.

(** [micro.NewService(Name, Address, RegisterTTL, RegisterInterval)] *)
Definition micro_NewService (name address : string) (ttl interval : Z) : M Service :=
  call (MicroNewService name address ttl interval) ;;
  ret {| svc_Name := name; svc_Address := address;
         svc_RegisterTTL := ttl; svc_RegisterInterval := interval;
         svc_Id := server_Id w; svc_Registry := client_Registry w |}.

(** [router.NewRouter(Id, Address, Network, Registry)] *)
Definition router_NewRouter (id address network registry : string) : M RouterH :=
  call (RouterNewRouter id address network registry) ;;
  ret {| rt_Id := id; rt_Address := address;
         rt_Network := network; rt_Registry := registry |}.

(** [newServer] *)
Definition newServer (s : Service) (r : RouterH) : M srv :=
  g <- get ;;
  call (GrpcNewTransport (Network g)) ;;
  call ServerNewServer ;;
  ret {| router := r; network := {| sv_Transport := Network g |} |}.

(** [srv.start] *)
Definition start (s : srv) : M error :=
  call (LogInfo "starting micro server") ;;
  call RouterStart ;;
  match router_Start w with
  | Some err => ret (Some err)
  | None => ret None
  end.

(** [srv.stop] *)
Definition stop (s : srv) : M error :=
  call (LogInfo "stopping server") ;;
  call RouterStop ;;
  match router_Stop w with
  | Some err => ret (Some ("failed to stop router: " +:+ err))
  | None => ret None
  end.

(** The four [if len(ctx.String(..)) > 0 { .. }] statements of [run]. *)
Definition resolve (ctx : cli.Context) : M unit :=
  (v <- ctx_String ctx "server_name" ;;
   when (nonempty v)
     (v' <- ctx_String ctx "server_name" ;;
      g <- get ;;
      put {| Name := v'; Address := Address g; Router := Router g; Network := Network g |})) ;;
  (v <- ctx_String ctx "address" ;;
   when (nonempty v)
     (v' <- ctx_String ctx "address" ;;
      g <- get ;;
      put {| Name := Name g; Address := v'; Router := Router g; Network := Network g |})) ;;
  (v <- ctx_String ctx "router_address" ;;
   when (nonempty v)
     (v' <- ctx_String ctx "router" ;;
      g <- get ;;
      put {| Name := Name g; Address := Address g; Router := v'; Network := Network g |})) ;;
  (v <- ctx_String ctx "network_address" ;;
   when (nonempty v)
     (v' <- ctx_String ctx "network" ;;
      g <- get ;;
      put {| Name := Name g; Address := Address g; Router := Router g; Network := v' |})).

(** [run] *)
Definition run (ctx : cli.Context) (srvOpts : list MicroOption) : M unit :=
  call (LogInit "server") ;;
  for_range Plugins (fun p =>
    call (PluginInit (plugin_String p)) ;;
    let _ := plugin_Init p ctx in ret tt) ;;
  resolve ctx ;;
  g <- get ;;
  ttl <- ctx_Int ctx "register_ttl" ;;
  interval <- ctx_Int ctx "register_interval" ;;
  service <- micro_NewService (Name g) (Address g)
               (time.mul (time.Duration ttl) time.Second)
               (time.mul (time.Duration interval) time.Second) ;;
  g <- get ;;
  r <- router_NewRouter (svc_Id service) (Router g) (Network g) (svc_Registry service) ;;
  s <- newServer service r ;;
  err <- start s ;;
  match err with
  | Some e => call (LogErrorf ("failed to start: " +:+ e)) ;; os_Exit 1
  | None => ret tt
  end ;;
  call (LogInfo "successfully started") ;;
  call ServiceRun ;;
  match service_Run w with
  | Some e => call (LogErrorf ("failed with error " +:+ e)) ;; os_Exit 1
  | None => ret tt
  end ;;
  err <- stop s ;;
  match err with
  | Some e => call (LogErrorf ("failed to stop: " +:+ e)) ;; os_Exit 1
  | None => ret tt
  end ;;
  call (LogInfo "successfully stopped").

(** The three flags that [Commands] declares itself. *)
Definition base_flags : list cli.Flag :=
  [ cli.StringFlag "address" "Set the micro server address :8083" ["MICRO_SERVER_ADDRESS"];
    cli.StringFlag "router_address" "Set the micro router address :9093" ["MICRO_ROUTER_ADDRESS"];
    cli.StringFlag "network_address" "Set the micro network id :local" ["MICRO_NETWORK_ADDRESS"] ].

(** The [Action] closure of the [server] command. *)
Definition action (options : list MicroOption) (ctx : cli.Context) : M error :=
  run ctx options ;; ret None.

(** The body of the [for _, p := range Plugins()] loop of [Commands]. *)
Definition add_plugin (command : Command) (p : Plugin) : Command :=
  let command :=
    let cmds := plugin_Commands p in
    if (0 <? length cmds)%nat
    then mkCommand (cmdName command) (cmdUsage command) (cmdFlags command)
           (cmdSubcommands command ++ cmds) (cmdAction command)
    else command in
  let flags := plugin_Flags p in
  if (0 <? length flags)%nat
  then mkCommand (cmdName command) (cmdUsage command) (cmdFlags command ++ flags)
         (cmdSubcommands command) (cmdAction command)
  else command.

(** [Commands] *)
Definition Commands (options : list MicroOption) : list Command :=
  let command :=
    {| cmdName := "server";
       cmdUsage := "Run the micro network server";
       cmdFlags := base_flags;
       cmdSubcommands := [];
       cmdAction := action options |} in
  [fold_left add_plugin Plugins command].
End Server.

(** ** Running the process *)

(** The state at process entry: the variables hold their declared values
    and nothing has been called. *)
Definition boot : State := {| globals := defaults; ledger := [] |}.

(** The configuration variables once [run] is over. *)
Definition resolved (w : World) (ps : list Plugin) (ctx : cli.Context) : Globals :=
  globals (snd (run w ps ctx [] boot)).

(** The calls [run] made, in order. *)
Definition calls (w : World) (ps : list Plugin) (ctx : cli.Context) : list Call :=
  ledger (snd (run w ps ctx [] boot)).

(** How the process ended: [Ret tt] when [run] returned, [Exited c] when it
    called [os.Exit(c)]. *)
Definition outcome (w : World) (ps : list Plugin) (ctx : cli.Context) : Outcome unit :=
  fst (run w ps ctx [] boot).

(** *** Classes of calls *)

Definition is_init (c : Call) : bool :=
  match c with PluginInit _ => true | _ => false end.

Definition is_lookup (c : Call) : bool :=
  match c with CtxString _ => true | _ => false end.

Definition is_construct (c : Call) : bool :=
  match c with
  | MicroNewService _ _ _ _ | RouterNewRouter _ _ _ _
  | GrpcNewTransport _ | ServerNewServer => true
  | _ => false
  end.

Definition is_NewService (c : Call) : bool :=
  match c with MicroNewService _ _ _ _ => true | _ => false end.

Definition is_stop (c : Call) : bool :=
  match c with RouterStop => true | _ => false end.

Definition is_run (c : Call) : bool :=
  match c with ServiceRun => true | _ => false end.

(** Every [P]-call of [l] comes before every [Q]-call of [l]. *)
Definition all_before (P Q : Call -> bool) (l : list Call) : Prop :=
  ∀ (i j : nat) (c d : Call),
    l !! i = Some c → P c = true → l !! j = Some d → Q d = true → (i < j)%nat.

(** The number of [P]-calls in a ledger. *)
Definition count (P : Call -> bool) (l : list Call) : nat :=
  length (List.filter P l).

Definition is_start (c : Call) : bool :=
  match c with RouterStart => true | _ => false end.

Definition is_exit (c : Call) : bool :=
  match c with OsExit _ => true | _ => false end.

Definition is_errorf (c : Call) : bool :=
  match c with LogErrorf _ => true | _ => false end.

(** The lines written to the log. *)
Definition is_log (c : Call) : bool :=
  match c with LogInfo _ | LogErrorf _ => true | _ => false end.

(** The calls on the router and on the service's run loop. *)
Definition is_lifecycle (c : Call) : bool :=
  match c with RouterStart | ServiceRun | RouterStop => true | _ => false end.

(** ** What the specification says of resolution *)

(** A setting as the specification words it: the value of its flag when
    that is non-empty, the default otherwise. *)
Definition spec_setting (ctx : cli.Context) (flag dflt : string) : string :=
  if nonempty (cli.String ctx flag) then cli.String ctx flag else dflt.

(** The configuration the specification's precedence rule gives, each
    setting read under the name of its flag. *)
Definition spec_Configuration (ctx : cli.Context) : Globals :=
  {| Name := spec_setting ctx "server_name" "go.micro.server";
     Address := spec_setting ctx "address" ":8087";
     Router := spec_setting ctx "router_address" ":9093";
     Network := spec_setting ctx "network_address" "local" |}.

(** ** The phases of [run] as ledgers *)

(** The lookups made by the resolution phase. *)
Definition resolve_calls (ctx : cli.Context) : list Call :=
  CtxString "server_name" ::
  (if nonempty (cli.String ctx "server_name") then [CtxString "server_name"] else []) ++
  CtxString "address" ::
  (if nonempty (cli.String ctx "address") then [CtxString "address"] else []) ++
  CtxString "router_address" ::
  (if nonempty (cli.String ctx "router_address") then [CtxString "router"] else []) ++
  CtxString "network_address" ::
  (if nonempty (cli.String ctx "network_address") then [CtxString "network"] else []).

(** The variables after the resolution phase, from their values before. *)
Definition resolve_globals (ctx : cli.Context) (g : Globals) : Globals :=
  {| Name := if nonempty (cli.String ctx "server_name")
             then cli.String ctx "server_name" else Name g;
     Address := if nonempty (cli.String ctx "address")
                then cli.String ctx "address" else Address g;
     Router := if nonempty (cli.String ctx "router_address")
               then cli.String ctx "router" else Router g;
     Network := if nonempty (cli.String ctx "network_address")
                then cli.String ctx "network" else Network g |}.

(** The calls that read the registration settings and build the
    components, from the resolved variables [g]. *)
Definition construct_calls (w : World) (ctx : cli.Context) (g : Globals) : list Call :=
  [ CtxInt "register_ttl";
    CtxInt "register_interval";
    MicroNewService (Name g) (Address g)
      (time.mul (time.Duration (cli.Int ctx "register_ttl")) time.Second)
      (time.mul (time.Duration (cli.Int ctx "register_interval")) time.Second);
    RouterNewRouter (server_Id w) (Router g) (Network g) (client_Registry w);
    GrpcNewTransport (Network g);
    ServerNewServer ].

(** The calls of the start, run, stop sequence. *)
Definition lifecycle_calls (w : World) : list Call :=
  LogInfo "starting micro server" :: RouterStart ::
  match router_Start w with
  | Some e => [LogErrorf ("failed to start: " +:+ e); OsExit 1]
  | None =>
      LogInfo "successfully started" :: ServiceRun ::
      match service_Run w with
      | Some e => [LogErrorf ("failed with error " +:+ e); OsExit 1]
      | None =>
          LogInfo "stopping server" :: RouterStop ::
          match router_Stop w with
          | Some e =>
              [LogErrorf ("failed to stop: " +:+ ("failed to stop router: " +:+ e)); OsExit 1]
          | None => [LogInfo "successfully stopped"]
          end
      end
  end.

(** How the start, run, stop sequence ends. *)
Definition lifecycle_outcome (w : World) : Outcome unit :=
  match router_Start w, service_Run w, router_Stop w with
  | None, None, None => Ret tt
  | _, _, _ => Exited 1
  end.

(** ** Sample invocations *)

(** Collaborators that all succeed. *)
Definition world_ok : World :=
  {| router_Start := None; service_Run := None; router_Stop := None;
     server_Id := "server-1"; client_Registry := "mdns" |}.

(** No flag set. *)
Definition ctx_empty : cli.Context := cli.mkContext ∅ ∅.

(** A plugin contributing one flag and no sub-command. *)
Definition plugin_a : Plugin :=
  {| plugin_String := "a";
     plugin_Flags := [cli.StringFlag "a_flag" "first" []];
     plugin_Commands := [];
     plugin_Init := fun _ => None |}.

(** A plugin contributing one flag and one sub-command; its [Init] fails. *)
Definition plugin_b : Plugin :=
  {| plugin_String := "b";
     plugin_Flags := [cli.StringFlag "b_flag" "second" ["B_FLAG"]];
     plugin_Commands :=
       [ mkCommand "b_cmd" "sub-command of b" [] [] (fun _ => ret None) ];
     plugin_Init := fun _ => Some "b: init failed" |}.

(** A router whose [Start] fails. *)
Definition world_start_fails : World :=
  {| router_Start := Some "bind: address already in use";
     service_Run := None; router_Stop := None;
     server_Id := "server-1"; client_Registry := "mdns" |}.

(** A service whose run loop fails. *)
Definition world_run_fails : World :=
  {| router_Start := None; service_Run := Some "broker disconnected";
     router_Stop := None;
     server_Id := "server-1"; client_Registry := "mdns" |}.

(** A router whose [Stop] fails. *)
Definition world_stop_fails : World :=
  {| router_Start := None; service_Run := None;
     router_Stop := Some "not running";
     server_Id := "server-1"; client_Registry := "mdns" |}.

(** Only the declared flag [router_address] is set. *)
Definition ctx_router_address : cli.Context :=
  cli.mkContext {[ "router_address" := ":1234" ]} ∅.

(** Only a flag named [router] is set. *)
Definition ctx_router : cli.Context :=
  cli.mkContext {[ "router" := ":1234" ]} ∅.

(** Both [router_address] and [network_address] are set, [router] and
    [network] are not. *)
Definition ctx_declared_flags : cli.Context :=
  cli.mkContext {[ "router_address" := ":1234"; "network_address" := "wan" ]} ∅.

(** [register_ttl] is set to a number of seconds beyond what a
    [time.Duration] holds. *)
Definition ctx_ttl_overflow : cli.Context :=
  cli.mkContext ∅ {[ "register_ttl" := 9223372037 ]}.

(** [register_ttl] is set to 30, [register_interval] is not set. *)
Definition ctx_ttl_30 : cli.Context :=
  cli.mkContext ∅ {[ "register_ttl" := 30 ]}.

(** [register_ttl] is set to 30 and [register_interval] to a number of
    seconds beyond what a [time.Duration] holds. *)
Definition ctx_ttl_30_interval_overflow : cli.Context :=
  cli.mkContext ∅ {[ "register_ttl" := 30; "register_interval" := 9223372037 ]}.

(** [router_address] and a flag named [router] are both set, to different
    values. *)
Definition ctx_router_both : cli.Context :=
  cli.mkContext {[ "router_address" := ":1234"; "router" := ":5555" ]} ∅.

(** A flag [server_name] is set. *)
Definition ctx_server_name : cli.Context :=
  cli.mkContext {[ "server_name" := "go.micro.edge" ]} ∅.

(** The flag [address] is set. *)
Definition ctx_address : cli.Context :=
  cli.mkContext {[ "address" := "127.0.0.1:9000" ]} ∅.

(** A plugin named as [plugin_b] whose [Init] succeeds and which
    contributes nothing. *)
Definition plugin_b_quiet : Plugin :=
  {| plugin_String := "b";
     plugin_Flags := [];
     plugin_Commands := [];
     plugin_Init := fun _ => None |}.

(** ** The effect of [run], step by step *)

Lemma nonempty_true (s : string) : nonempty s = true ↔ s ≠ "".
Proof. destruct s; cbn; split; intros; congruence. Qed.

Lemma nonempty_false (s : string) : nonempty s = false ↔ s = "".
Proof. destruct s; cbn; split; intros; congruence. Qed.

Lemma bind_Ret {A B} (m : M A) (k : A → M B) s a s' :
  m s = (Ret a, s') → bind m k s = k a s'.
Proof. unfold bind. now intros ->. Qed.

Lemma bind_Exited {A B} (m : M A) (k : A → M B) s c s' :
  m s = (Exited c, s') → bind m k s = (Exited c, s').
Proof. unfold bind. now intros ->. Qed.

(** The plugin loop calls [Init] on each plugin in turn and changes nothing
    else. *)
Lemma init_loop (ps : list Plugin) (ctx : cli.Context) (g : Globals) (l : list Call) :
  for_range ps (fun p =>
      call (PluginInit (plugin_String p)) ;;
      let _ := plugin_Init p ctx in ret tt) {| globals := g; ledger := l |}
  = (Ret tt, {| globals := g;
                ledger := l ++ map (fun p => PluginInit (plugin_String p)) ps |}).
Proof.
  revert l. induction ps as [|p ps IH]; intros l; cbn.
  - unfold ret. now rewrite app_nil_r.
  - unfold bind at 1. cbn. rewrite IH. now rewrite <- app_assoc.
Qed.

Lemma resolve_eq (ctx : cli.Context) (g : Globals) (l : list Call) :
  resolve ctx {| globals := g; ledger := l |}
  = (Ret tt, {| globals := resolve_globals ctx g; ledger := l ++ resolve_calls ctx |}).
Proof.
  unfold resolve, resolve_globals, resolve_calls, ctx_String, when, bind, call, get, put, ret.
  destruct g as [n a r k].
  destruct (nonempty (cli.String ctx "server_name")),
           (nonempty (cli.String ctx "address")),
           (nonempty (cli.String ctx "router_address")),
           (nonempty (cli.String ctx "network_address")); cbn;
    rewrite <- ?app_assoc; reflexivity.
Qed.

Lemma run_eq (w : World) (ps : list Plugin) (ctx : cli.Context)
    (opts : list MicroOption) (g : Globals) (l : list Call) :
  run w ps ctx opts {| globals := g; ledger := l |}
  = (lifecycle_outcome w,
     {| globals := resolve_globals ctx g;
        ledger := l ++ LogInit "server"
                    :: map (fun p => PluginInit (plugin_String p)) ps
                    ++ resolve_calls ctx
                    ++ construct_calls w ctx (resolve_globals ctx g)
                    ++ lifecycle_calls w |}).
Proof.
  unfold run.
  erewrite bind_Ret by reflexivity. cbn [globals ledger].
  erewrite bind_Ret by apply (init_loop ps ctx).
  erewrite bind_Ret by apply resolve_eq.
  generalize (resolve_calls ctx) as rc, (resolve_globals ctx g) as g'.
  intros rc g'.
  unfold lifecycle_outcome, lifecycle_calls, construct_calls.
  unfold micro_NewService, router_NewRouter, newServer, start, stop, ctx_Int,
    os_Exit, bind, call, get, ret.
  destruct (router_Start w), (service_Run w), (router_Stop w); cbn;
    rewrite <- ?app_assoc; cbn; reflexivity.
Qed.

Lemma calls_eq (w : World) (ps : list Plugin) (ctx : cli.Context) :
  calls w ps ctx
  = LogInit "server"
      :: map (fun p => PluginInit (plugin_String p)) ps
      ++ resolve_calls ctx
      ++ construct_calls w ctx (resolve_globals ctx defaults)
      ++ lifecycle_calls w.
Proof. unfold calls, boot. now rewrite run_eq. Qed.

Lemma resolved_eq (w : World) (ps : list Plugin) (ctx : cli.Context) :
  resolved w ps ctx = resolve_globals ctx defaults.
Proof. unfold resolved, boot. now rewrite run_eq. Qed.

Lemma outcome_eq (w : World) (ps : list Plugin) (ctx : cli.Context) :
  outcome w ps ctx = lifecycle_outcome w.
Proof. unfold outcome, boot. now rewrite run_eq. Qed.

(** ** Facts about ledgers *)

Lemma all_before_app (P Q : Call → bool) (pre post : list Call) :
  Forall (fun c => Q c = false) pre →
  Forall (fun d => P d = false) post →
  all_before P Q (pre ++ post).
Proof.
  intros Hpre Hpost i j c d Hi Pc Hj Qd.
  rewrite Forall_lookup in Hpre. rewrite Forall_lookup in Hpost.
  destruct (decide (i < length pre)%nat) as [Hlt|Hge].
  - destruct (decide (j < length pre)%nat) as [Hj'|Hj']; [|lia].
    rewrite lookup_app_l in Hj by assumption.
    specialize (Hpre _ _ Hj). congruence.
  - rewrite lookup_app_r in Hi by lia.
    specialize (Hpost _ _ Hi). congruence.
Qed.

Lemma filter_none (P : Call → bool) (l : list Call) :
  Forall (fun c => P c = false) l → List.filter P l = [].
Proof.
  induction 1 as [|c l Hc _ IH]; cbn; [reflexivity|]. now rewrite Hc.
Qed.

Lemma filter_all (P : Call → bool) (l : list Call) :
  Forall (fun c => P c = true) l → List.filter P l = l.
Proof.
  induction 1 as [|c l Hc _ IH]; cbn; [reflexivity|]. rewrite Hc. now f_equal.
Qed.

(** The calls of the plugin loop are [Init] calls, one per plugin. *)
Lemma init_calls_class (P : Call → bool) (b : bool) (ps : list Plugin) :
  (∀ name, P (PluginInit name) = b) →
  Forall (fun c => P c = b) (map (fun p => PluginInit (plugin_String p)) ps).
Proof. intros HP. induction ps; constructor; auto. Qed.

(** The calls of the resolution phase are string lookups. *)
Lemma resolve_calls_class (P : Call → bool) (b : bool) (ctx : cli.Context) :
  (∀ key, P (CtxString key) = b) →
  Forall (fun c => P c = b) (resolve_calls ctx).
Proof.
  intros HP. unfold resolve_calls.
  destruct (nonempty (cli.String ctx "server_name")),
           (nonempty (cli.String ctx "address")),
           (nonempty (cli.String ctx "router_address")),
           (nonempty (cli.String ctx "network_address"));
    repeat constructor; auto.
Qed.

(** None of the calls of the start, run, stop sequence initialises a plugin,
    looks a flag up or builds a component. *)
Lemma lifecycle_calls_class (P : Call → bool) (w : World) :
  P RouterStart = false → P ServiceRun = false → P RouterStop = false →
  P (OsExit 1) = false →
  (∀ msg, P (LogInfo msg) = false) → (∀ msg, P (LogErrorf msg) = false) →
  Forall (fun c => P c = false) (lifecycle_calls w).
Proof.
  intros. unfold lifecycle_calls.
  destruct (router_Start w), (service_Run w), (router_Stop w);
    repeat constructor; auto.
Qed.

(** A call that is neither a plugin [Init] nor a string lookup nor the
    logger's set-up is in the ledger of [run] exactly when the construction
    phase or the start, run, stop sequence made it. *)
Lemma elem_of_calls (w : World) (ps : list Plugin) (ctx : cli.Context) (c : Call) :
  is_init c = false → is_lookup c = false → c ≠ LogInit "server" →
  c ∈ calls w ps ctx ↔
    c ∈ construct_calls w ctx (resolve_globals ctx defaults) ∨ c ∈ lifecycle_calls w.
Proof.
  intros Hi Hl Hlog.
  rewrite calls_eq, elem_of_cons, !elem_of_app.
  pose proof (init_calls_class is_init true ps (fun _ => eq_refl)) as Fi.
  pose proof (resolve_calls_class is_lookup true ctx (fun _ => eq_refl)) as Fl.
  rewrite Forall_forall in Fi. rewrite Forall_forall in Fl.
  split.
  - intros [H|[H|[H|H]]]; auto.
    + contradiction.
    + apply Fi in H. congruence.
    + apply Fl in H. congruence.
  - intros [H|H]; auto.
Qed.

(** The [P]-calls of the ledger of [run], for a class [P] without plugin
    [Init]s, lookups and logger set-up, are those of the construction
    phase followed by those of the start, run, stop sequence. *)
Lemma filter_calls (P : Call → bool) (w : World) (ps : list Plugin) (ctx : cli.Context) :
  (∀ name, P (PluginInit name) = false) → (∀ key, P (CtxString key) = false) →
  P (LogInit "server") = false →
  List.filter P (calls w ps ctx)
  = List.filter P (construct_calls w ctx (resolve_globals ctx defaults))
    ++ List.filter P (lifecycle_calls w).
Proof.
  intros Hi Hl Hlog. rewrite calls_eq. cbn [List.filter]. rewrite Hlog.
  rewrite !List.filter_app.
  rewrite (filter_none P (map _ ps)) by (apply init_calls_class; exact Hi).
  rewrite (filter_none P (resolve_calls ctx)) by (apply resolve_calls_class; exact Hl).
  reflexivity.
Qed.

(** The ledger of [run] ends with the calls of the start, run, stop
    sequence. *)
Lemma last_calls (w : World) (ps : list Plugin) (ctx : cli.Context) :
  last (calls w ps ctx) = last (lifecycle_calls w).
Proof.
  rewrite calls_eq.
  change (LogInit "server" :: ?l) with ([LogInit "server"] ++ l).
  rewrite !last_app.
  unfold lifecycle_calls.
  destruct (router_Start w), (service_Run w), (router_Stop w); reflexivity.
Qed.

Example run_defaults_only :
  run world_ok [] ctx_empty [] boot
  = (Ret tt,
     {| globals := defaults;
        ledger :=
          [ LogInit "server";
            CtxString "server_name"; CtxString "address";
            CtxString "router_address"; CtxString "network_address";
            CtxInt "register_ttl"; CtxInt "register_interval";
            MicroNewService "go.micro.server" ":8087" 0 0;
            RouterNewRouter "server-1" ":9093" "local" "mdns";
            GrpcNewTransport "local"; ServerNewServer;
            LogInfo "starting micro server"; RouterStart;
            LogInfo "successfully started"; ServiceRun;
            LogInfo "stopping server"; RouterStop;
            LogInfo "successfully stopped" ] |}).
Proof. vm_compute. reflexivity. Qed.

(** ** Configuration resolution *)

(** The service name and the bind address follow the precedence rule. *)
Lemma resolved_Name_Address (w : World) (ps : list Plugin) (ctx : cli.Context) :
  Name (resolved w ps ctx) = Name (spec_Configuration ctx) ∧
  Address (resolved w ps ctx) = Address (spec_Configuration ctx).
Proof. rewrite resolved_eq. split; reflexivity. Qed.

(** With no string flag set the variables keep their declared values. *)
Lemma resolved_defaults_only (w : World) (ps : list Plugin) (ctx : cli.Context) :
  cli.strings ctx = ∅ →
  resolved w ps ctx
  = {| Name := "go.micro.server"; Address := ":8087";
       Router := ":9093"; Network := "local" |}.
Proof.
  intros He. rewrite resolved_eq. unfold resolve_globals, cli.String.
  rewrite He. rewrite !lookup_empty. reflexivity.
Qed.

(** An override of the bind address alone leaves the other settings at
    their defaults. *)
Example resolved_address_override :
  resolved world_ok [] (cli.mkContext {[ "address" := "127.0.0.1:9000" ]} ∅)
  = {| Name := "go.micro.server"; Address := "127.0.0.1:9000";
       Router := ":9093"; Network := "local" |}.
Proof. vm_compute. reflexivity. Qed.

(** C1, at the input where the code departs from it: with the flag
    [router_address] set to [":1234"] the precedence rule gives the router
    address [":1234"], and [run] leaves the router address empty, because
    it tests [router_address] and then reads [router]; with [router] set
    instead, the rule read on that name gives [":1234"] and [run] keeps
    the default. *)
Theorem router_override_lost :
  Router (spec_Configuration ctx_router_address) = ":1234" ∧
  Router (resolved world_ok [] ctx_router_address) = "" ∧
  RouterNewRouter "server-1" "" "local" "mdns" ∈ calls world_ok [] ctx_router_address ∧
  spec_setting ctx_router "router" ":9093" = ":1234" ∧
  Router (resolved world_ok [] ctx_router) = ":9093".
Proof.
  repeat split; try (vm_compute; reflexivity).
  apply list_elem_of_In. vm_compute. tauto.
Qed.

(** C2, at the input where the code departs from it: with the declared
    flags [router_address] and [network_address] set and no flag named
    [router] or [network], the claim has the resolved router address and
    network id fall back to the defaults [":9093"] and ["local"]; [run]
    passes the test on the declared name and then stores the empty value
    read under the other name, so both settings end up empty and the router
    is built with them.  With [router] set as well, it is that value which
    is stored. *)
Theorem router_fallback_not_default :
  nonempty (cli.String ctx_declared_flags "router_address") = true ∧
  cli.String ctx_declared_flags "router" = "" ∧
  Router (resolved world_ok [] ctx_declared_flags) = "" ∧
  Router (resolved world_ok [] ctx_declared_flags) ≠ ":9093" ∧
  nonempty (cli.String ctx_declared_flags "network_address") = true ∧
  cli.String ctx_declared_flags "network" = "" ∧
  Network (resolved world_ok [] ctx_declared_flags) = "" ∧
  Network (resolved world_ok [] ctx_declared_flags) ≠ "local" ∧
  List.filter is_construct (calls world_ok [] ctx_declared_flags)
    = [ MicroNewService "go.micro.server" ":8087" 0 0;
        RouterNewRouter "server-1" "" "" "mdns";
        GrpcNewTransport ""; ServerNewServer ] ∧
  Router (resolved world_ok [] ctx_router_both) = ":5555".
Proof. vm_compute. repeat split; discriminate. Qed.

(** What [run] does with the router address and the network id, for every
    invocation: it tests the declared flag names [router_address] and
    [network_address], which are base flags, and reads the value to store
    under the names [router] and [network], which are not.  When the tested
    lookup is non-empty the setting becomes the value of the other lookup,
    whatever it is; when the tested lookup is empty the setting keeps its
    default. *)
Lemma mismatched_keys_resolution (w : World) (ps : list Plugin) (ctx : cli.Context) :
  ("router" ∉ map cli.flagName base_flags) ∧
  ("network" ∉ map cli.flagName base_flags) ∧
  (cli.String ctx "router_address" ≠ "" →
     Router (resolved w ps ctx) = cli.String ctx "router") ∧
  (cli.String ctx "network_address" ≠ "" →
     Network (resolved w ps ctx) = cli.String ctx "network") ∧
  (cli.String ctx "router_address" = "" → Router (resolved w ps ctx) = ":9093") ∧
  (cli.String ctx "network_address" = "" → Network (resolved w ps ctx) = "local").
Proof.
  rewrite resolved_eq. unfold resolve_globals. cbn [Router Network defaults].
  split; [|split]; [cbn; rewrite !elem_of_cons, elem_of_nil; intuition discriminate ..|].
  split; [|split; [|split]].
  - intros Hne. now rewrite (proj2 (nonempty_true _) Hne).
  - intros Hne. now rewrite (proj2 (nonempty_true _) Hne).
  - intros He. now rewrite (proj2 (nonempty_false _) He).
  - intros He. now rewrite (proj2 (nonempty_false _) He).
Qed.

Lemma mismatched_keys_resolution_witness :
  Router (resolved world_ok [plugin_a] ctx_router_both) = ":5555" ∧
  Network (resolved world_ok [plugin_a] ctx_declared_flags) = "" ∧
  Router (resolved world_ok [plugin_a] ctx_router) = ":9093" ∧
  Network (resolved world_ok [plugin_a] ctx_router) = "local".
Proof.
  destruct (mismatched_keys_resolution world_ok [plugin_a] ctx_router_both)
    as (_ & _ & Hr & _).
  destruct (mismatched_keys_resolution world_ok [plugin_a] ctx_declared_flags)
    as (_ & _ & _ & Hn & _).
  destruct (mismatched_keys_resolution world_ok [plugin_a] ctx_router)
    as (_ & _ & _ & _ & Hr' & Hn').
  split; [rewrite Hr; [reflexivity | discriminate]|].
  split; [rewrite Hn; [reflexivity | discriminate]|].
  split; [apply Hr'; reflexivity | apply Hn'; reflexivity].
Defined.

(** ** Plugin initialisation *)

(** C3 as stated fails: with one plugin registered, [run] initialises the
    plugin (call 1 of the ledger) before the first lookup of the resolution
    phase (call 2), so the lookups do not all come before the [Init]. *)
Lemma resolution_not_before_init :
  calls world_ok [plugin_a] ctx_empty !! 1%nat = Some (PluginInit "a") ∧
  calls world_ok [plugin_a] ctx_empty !! 2%nat = Some (CtxString "server_name") ∧
  ¬ all_before is_lookup is_init (calls world_ok [plugin_a] ctx_empty).
Proof.
  split; [vm_compute; reflexivity|]. split; [vm_compute; reflexivity|].
  intros H.
  specialize (H 2%nat 1%nat (CtxString "server_name") (PluginInit "a")).
  assert (2 < 1)%nat; [apply H; vm_compute; reflexivity | lia].
Qed.

(** C3, amended: on invocation, [run] invokes [Init] exactly once per
    registered plugin, in registration order, and every [Init] comes before
    the first lookup of configuration resolution (resolution follows plugin
    initialisation, it does not precede it) and before the construction of
    any component (service, router, transport, server). *)
Theorem init_before_resolution_and_construction
    (w : World) (ps : list Plugin) (ctx : cli.Context) :
  List.filter is_init (calls w ps ctx)
    = map (fun p => PluginInit (plugin_String p)) ps ∧
  all_before is_init is_lookup (calls w ps ctx) ∧
  all_before is_init is_construct (calls w ps ctx) ∧
  count is_construct (calls w ps ctx) = 4%nat.
Proof.
  rewrite calls_eq.
  set (inits := map (fun p => PluginInit (plugin_String p)) ps).
  set (g := resolve_globals ctx defaults).
  assert (Hres : Forall (fun c => is_init c = false) (resolve_calls ctx))
    by (apply resolve_calls_class; reflexivity).
  assert (Hcon : Forall (fun c => is_init c = false) (construct_calls w ctx g))
    by (repeat constructor).
  assert (Hlife : Forall (fun c => is_init c = false) (lifecycle_calls w))
    by (apply lifecycle_calls_class; reflexivity).
  assert (Hpost : Forall (fun c => is_init c = false)
            (resolve_calls ctx ++ construct_calls w ctx g ++ lifecycle_calls w))
    by (rewrite !Forall_app; auto).
  repeat split.
  - cbn [List.filter is_init]. rewrite List.filter_app.
    rewrite (filter_none _ _ Hpost), app_nil_r.
    apply filter_all, init_calls_class; reflexivity.
  - apply (all_before_app _ _ (LogInit "server" :: inits)); [|exact Hpost].
    constructor; [reflexivity|]. apply init_calls_class; reflexivity.
  - apply (all_before_app _ _ (LogInit "server" :: inits)); [|exact Hpost].
    constructor; [reflexivity|]. apply init_calls_class; reflexivity.
  - unfold count. cbn [List.filter is_construct]. rewrite !List.filter_app.
    rewrite (filter_none is_construct inits)
      by (apply init_calls_class; reflexivity).
    rewrite (filter_none is_construct (resolve_calls ctx))
      by (apply resolve_calls_class; reflexivity).
    rewrite (filter_none is_construct (lifecycle_calls w))
      by (apply lifecycle_calls_class; reflexivity).
    reflexivity.
Qed.

(** ** The start, run, stop sequence *)

(** C6: whenever the router's [Start] returns an error, [run] reports it
    and exits with status 1; the router's [Stop] is never invoked and the
    service's run loop is never entered. *)
Theorem start_error_never_runs
    (w : World) (ps : list Plugin) (ctx : cli.Context) (e : string)
    (Hstart : router_Start w = Some e) :
  outcome w ps ctx = Exited 1 ∧
  RouterStart ∈ calls w ps ctx ∧
  (RouterStop ∉ calls w ps ctx) ∧
  (ServiceRun ∉ calls w ps ctx) ∧
  LogErrorf ("failed to start: " +:+ e) ∈ calls w ps ctx ∧
  last (calls w ps ctx) = Some (OsExit 1).
Proof.
  rewrite outcome_eq, last_calls, !elem_of_calls by (reflexivity || discriminate).
  unfold lifecycle_outcome, lifecycle_calls, construct_calls. rewrite Hstart.
  repeat split.
  - right. rewrite !elem_of_cons. auto.
  - rewrite !elem_of_cons, !elem_of_nil. intuition discriminate.
  - rewrite !elem_of_cons, !elem_of_nil. intuition discriminate.
  - right. rewrite !elem_of_cons. auto.
Qed.

Lemma start_error_never_runs_witness :
  outcome world_start_fails [plugin_a; plugin_b] ctx_empty = Exited 1 ∧
  (RouterStop ∉ calls world_start_fails [plugin_a; plugin_b] ctx_empty) ∧
  ServiceRun ∉ calls world_start_fails [plugin_a; plugin_b] ctx_empty.
Proof.
  destruct (start_error_never_runs world_start_fails [plugin_a; plugin_b] ctx_empty
              "bind: address already in use" eq_refl)
    as (Ho & _ & Hs & Hr & _).
  exact (conj Ho (conj Hs Hr)).
Defined.

(** C4: whenever the service's run loop returns an error, [run] reports it
    and exits with status 1 at once: the router, which was started, is
    never stopped. *)
Theorem run_error_skips_stop
    (w : World) (ps : list Plugin) (ctx : cli.Context) (e : string)
    (Hstart : router_Start w = None) (Hrun : service_Run w = Some e) :
  outcome w ps ctx = Exited 1 ∧
  RouterStart ∈ calls w ps ctx ∧
  ServiceRun ∈ calls w ps ctx ∧
  (RouterStop ∉ calls w ps ctx) ∧
  LogErrorf ("failed with error " +:+ e) ∈ calls w ps ctx ∧
  last (calls w ps ctx) = Some (OsExit 1).
Proof.
  rewrite outcome_eq, last_calls, !elem_of_calls by (reflexivity || discriminate).
  unfold lifecycle_outcome, lifecycle_calls, construct_calls. rewrite Hstart, Hrun.
  repeat split.
  - right. rewrite !elem_of_cons. auto.
  - right. rewrite !elem_of_cons. auto.
  - rewrite !elem_of_cons, !elem_of_nil. intuition discriminate.
  - right. rewrite !elem_of_cons. auto 10.
Qed.

Lemma run_error_skips_stop_witness :
  outcome world_run_fails [plugin_a; plugin_b] ctx_empty = Exited 1 ∧
  RouterStop ∉ calls world_run_fails [plugin_a; plugin_b] ctx_empty.
Proof.
  destruct (run_error_skips_stop world_run_fails [plugin_a; plugin_b] ctx_empty
              "broker disconnected" eq_refl eq_refl)
    as (Ho & _ & _ & Hs & _).
  exact (conj Ho Hs).
Defined.

(** C5: whenever the service's run loop returns without error, the router's
    [Stop] is invoked exactly once, after the run loop; [run] returns
    (success) exactly when [Stop] succeeds, and when [Stop] fails with [e],
    [stop] returns the wrapped error ["failed to stop router: e"], which
    [run] reports before exiting with status 1. *)
Theorem run_success_stops_once
    (w : World) (ps : list Plugin) (ctx : cli.Context)
    (Hstart : router_Start w = None) (Hrun : service_Run w = None) :
  count is_stop (calls w ps ctx) = 1%nat ∧
  all_before is_run is_stop (calls w ps ctx) ∧
  (outcome w ps ctx = Ret tt ↔ router_Stop w = None) ∧
  (∀ e, router_Stop w = Some e →
     (∀ s st, fst (stop w s st) = Ret (Some ("failed to stop router: " +:+ e))) ∧
     LogErrorf ("failed to stop: " +:+ ("failed to stop router: " +:+ e))
       ∈ calls w ps ctx ∧
     outcome w ps ctx = Exited 1 ∧
     last (calls w ps ctx) = Some (OsExit 1)).
Proof.
  split; [|split; [|split]].
  - unfold count. rewrite filter_calls by reflexivity.
    unfold lifecycle_calls. rewrite Hstart, Hrun.
    destruct (router_Stop w); reflexivity.
  - rewrite calls_eq.
    pose proof (init_calls_class is_stop false ps (fun _ => eq_refl)) as Fi.
    pose proof (resolve_calls_class is_stop false ctx (fun _ => eq_refl)) as Fl.
    set (inits := map _ ps) in *.
    set (cons := construct_calls _ _ _).
    unfold lifecycle_calls. rewrite Hstart, Hrun.
    set (tl := match router_Stop w with Some _ => _ | None => _ end).
    change (all_before is_run is_stop
      ((LogInit "server" :: inits) ++ resolve_calls ctx ++ cons ++
       [LogInfo "starting micro server"; RouterStart;
        LogInfo "successfully started"; ServiceRun]
       ++ (LogInfo "stopping server" :: RouterStop :: tl))).
    rewrite !app_assoc. apply all_before_app.
    + rewrite !Forall_app. repeat split; auto; repeat constructor; auto.
    + subst tl. destruct (router_Stop w); repeat constructor.
  - rewrite outcome_eq. unfold lifecycle_outcome. rewrite Hstart, Hrun.
    destruct (router_Stop w); split; intros; congruence.
  - intros e Hstop.
    rewrite outcome_eq, last_calls, elem_of_calls by (reflexivity || discriminate).
    unfold lifecycle_outcome, lifecycle_calls, stop, bind, call, ret.
    rewrite Hstart, Hrun, Hstop. cbn [fst].
    repeat split. right. rewrite !elem_of_cons. auto 10.
Qed.

Lemma run_success_stops_once_witness :
  count is_stop (calls world_ok [plugin_a] ctx_empty) = 1%nat ∧
  outcome world_ok [plugin_a] ctx_empty = Ret tt ∧
  count is_stop (calls world_stop_fails [plugin_a] ctx_empty) = 1%nat ∧
  outcome world_stop_fails [plugin_a] ctx_empty = Exited 1 ∧
  LogErrorf "failed to stop: failed to stop router: not running"
    ∈ calls world_stop_fails [plugin_a] ctx_empty.
Proof.
  destruct (run_success_stops_once world_ok [plugin_a] ctx_empty eq_refl eq_refl)
    as (Hc & _ & Ho & _).
  destruct (run_success_stops_once world_stop_fails [plugin_a] ctx_empty eq_refl eq_refl)
    as (Hc' & _ & _ & Hf).
  destruct (Hf "not running" eq_refl) as (_ & Hlog & Ho' & _).
  split; [exact Hc|]. split; [apply Ho; reflexivity|].
  split; [exact Hc'|]. split; [exact Ho' | exact Hlog].
Defined.

(** ** Registration TTL and interval *)

Lemma wrap64_small (z : Z) : (- 2 ^ 63 ≤ z < 2 ^ 63)%Z → wrap64 z = z.
Proof. intros H. unfold wrap64. rewrite Z.mod_small; lia. Qed.

Lemma wrap64_range (z : Z) : (- 2 ^ 63 ≤ wrap64 z < 2 ^ 63)%Z.
Proof.
  unfold wrap64. pose proof (Z.mod_pos_bound (z + 2 ^ 63) (2 ^ 64)). lia.
Qed.

Lemma wrap64_mod (z : Z) : (wrap64 z `mod` 2 ^ 64 = z `mod` 2 ^ 64)%Z.
Proof.
  unfold wrap64. rewrite Zminus_mod_idemp_l. f_equal. lia.
Qed.

(** [time.Duration(n) * time.Second] is [n] seconds as long as that many
    nanoseconds fit an [int64]. *)
Lemma seconds_exact (n : Z) :
  (-9223372036 ≤ n ≤ 9223372036)%Z →
  time.mul (time.Duration n) time.Second = n * time.Second.
Proof.
  intros H. unfold time.mul, time.Duration, time.Second, time.Nanosecond.
  rewrite (wrap64_small n) by lia. apply wrap64_small. lia.
Qed.

(** C7 as stated fails: for [register_ttl = 9223372037], a value an [int]
    flag can hold, the TTL passed to the service is a negative duration,
    not 9223372037 seconds. *)
Lemma register_ttl_overflow :
  cli.Int ctx_ttl_overflow "register_ttl" = 9223372037 ∧
  List.filter is_NewService (calls world_ok [] ctx_ttl_overflow)
    = [MicroNewService "go.micro.server" ":8087" (-9223372036709551616) 0] ∧
  -9223372036709551616 ≠ 9223372037 * time.Second.
Proof. vm_compute. repeat split; discriminate. Qed.

(** [time.Duration(n) * time.Second] is always an [int64], equal to [n]
    times 1000000000 modulo 2^64. *)
Lemma seconds_wrap (n : Z) :
  (- 2 ^ 63 ≤ time.mul (time.Duration n) time.Second < 2 ^ 63)%Z ∧
  (time.mul (time.Duration n) time.Second `mod` 2 ^ 64
     = (n * 1000000000) `mod` 2 ^ 64)%Z.
Proof.
  split; [apply wrap64_range|].
  unfold time.mul, time.Duration, time.Second, time.Nanosecond.
  rewrite wrap64_mod, Z.mul_1_r, <- Zmult_mod_idemp_l, wrap64_mod.
  now rewrite Zmult_mod_idemp_l.
Qed.

(** C7, amended: the service is created once, and the registration TTL and
    the registration interval passed to it are always
    [time.Duration(N) * time.Second] for [N] the integer lookup
    [register_ttl], resp. [register_interval], with no test of the value
    and no default.  For each of the two on its own: this is [N] seconds
    whenever [N] seconds fit a [time.Duration] (between -9223372036 and
    9223372036 seconds), it is the product wrapped around to 64 bits beyond
    that, and it is 0 when the lookup is not set. *)
Theorem registration_durations
    (w : World) (ps : list Plugin) (ctx : cli.Context) :
  ∃ ttl interval,
    List.filter is_NewService (calls w ps ctx)
      = [MicroNewService (Name (resolved w ps ctx)) (Address (resolved w ps ctx))
           ttl interval] ∧
    ttl = time.mul (time.Duration (cli.Int ctx "register_ttl")) time.Second ∧
    interval
      = time.mul (time.Duration (cli.Int ctx "register_interval")) time.Second ∧
    ((-9223372036 ≤ cli.Int ctx "register_ttl" ≤ 9223372036)%Z →
       ttl = cli.Int ctx "register_ttl" * time.Second) ∧
    ((-9223372036 ≤ cli.Int ctx "register_interval" ≤ 9223372036)%Z →
       interval = cli.Int ctx "register_interval" * time.Second) ∧
    (cli.ints ctx !! "register_ttl" = None → ttl = 0) ∧
    (cli.ints ctx !! "register_interval" = None → interval = 0) ∧
    ((- 2 ^ 63 ≤ ttl < 2 ^ 63)%Z ∧
     (ttl `mod` 2 ^ 64
        = (cli.Int ctx "register_ttl" * 1000000000) `mod` 2 ^ 64)%Z) ∧
    ((- 2 ^ 63 ≤ interval < 2 ^ 63)%Z ∧
     (interval `mod` 2 ^ 64
        = (cli.Int ctx "register_interval" * 1000000000) `mod` 2 ^ 64)%Z).
Proof.
  do 2 eexists. split.
  { rewrite filter_calls by reflexivity. rewrite resolved_eq.
    rewrite (filter_none is_NewService (lifecycle_calls w))
      by (apply lifecycle_calls_class; reflexivity).
    cbn [construct_calls List.filter is_NewService app]. reflexivity. }
  split; [reflexivity|]. split; [reflexivity|].
  split; [apply seconds_exact|]. split; [apply seconds_exact|].
  split; [unfold cli.Int; now intros ->|].
  split; [unfold cli.Int; now intros ->|].
  split; apply seconds_wrap.
Qed.

Lemma registration_durations_witness :
  List.filter is_NewService (calls world_ok [plugin_a] ctx_ttl_30)
    = [MicroNewService "go.micro.server" ":8087" 30000000000 0] ∧
  List.filter is_NewService (calls world_ok [plugin_a] ctx_ttl_30_interval_overflow)
    = [MicroNewService "go.micro.server" ":8087" 30000000000 (-9223372036709551616)].
Proof.
  destruct (registration_durations world_ok [plugin_a] ctx_ttl_30)
    as (ttl & interval & Hcall & _ & _ & Httl & _ & _ & Hunset & _).
  destruct (registration_durations world_ok [plugin_a] ctx_ttl_30_interval_overflow)
    as (ttl' & interval' & Hcall' & _ & Hinterval' & Httl' & _).
  split.
  - rewrite Hcall, Httl, Hunset; [reflexivity | reflexivity |].
    vm_compute. split; discriminate.
  - rewrite Hcall', Httl', Hinterval'; [reflexivity |].
    vm_compute. split; discriminate.
Defined.

(** ** The command surface *)

Lemma add_plugin_fields (command : Command) (p : Plugin) :
  cmdName (add_plugin command p) = cmdName command ∧
  cmdUsage (add_plugin command p) = cmdUsage command ∧
  cmdFlags (add_plugin command p) = cmdFlags command ++ plugin_Flags p ∧
  cmdSubcommands (add_plugin command p) = cmdSubcommands command ++ plugin_Commands p ∧
  cmdAction (add_plugin command p) = cmdAction command.
Proof.
  unfold add_plugin.
  destruct (plugin_Commands p) as [|c cs], (plugin_Flags p) as [|f fs]; cbn;
    rewrite ?app_nil_r; auto.
Qed.

Lemma fold_add_plugin (ps : list Plugin) (command : Command) :
  cmdName (fold_left add_plugin ps command) = cmdName command ∧
  cmdUsage (fold_left add_plugin ps command) = cmdUsage command ∧
  cmdFlags (fold_left add_plugin ps command)
    = cmdFlags command ++ concat (map plugin_Flags ps) ∧
  cmdSubcommands (fold_left add_plugin ps command)
    = cmdSubcommands command ++ concat (map plugin_Commands ps) ∧
  cmdAction (fold_left add_plugin ps command) = cmdAction command.
Proof.
  revert command. induction ps as [|p ps IH]; intros command; cbn.
  - now rewrite !app_nil_r.
  - destruct (IH (add_plugin command p)) as (-> & -> & -> & -> & ->).
    destruct (add_plugin_fields command p) as (-> & -> & -> & -> & ->).
    now rewrite <- !app_assoc.
Qed.

Lemma subseteq_concat {A} (x : list A) (ls : list (list A)) :
  x ∈ ls → x ⊆ concat ls.
Proof.
  induction 1 as [x ls|x y ls _ IH]; cbn; intros a Ha; apply elem_of_app; auto.
Qed.

(** C8: for every list of registered plugins, [Commands] returns the one
    command [server] whose flags are the three base flags [address],
    [router_address], [network_address] followed by the flags of every
    plugin in registration order, nothing removed, and whose sub-commands
    are the sub-commands of every plugin in registration order; what each
    plugin contributes is present in the result. *)
Theorem Commands_flags_subcommands
    (w : World) (ps : list Plugin) (options : list MicroOption) :
  ∃ command,
    Commands w ps options = [command] ∧
    cmdName command = "server" ∧
    map cli.flagName base_flags = ["address"; "router_address"; "network_address"] ∧
    cmdFlags command = base_flags ++ concat (map plugin_Flags ps) ∧
    cmdSubcommands command = concat (map plugin_Commands ps) ∧
    Forall (fun p => plugin_Flags p ⊆ cmdFlags command ∧
                     plugin_Commands p ⊆ cmdSubcommands command) ps.
Proof.
  eexists. split; [reflexivity|].
  match goal with |- context [fold_left add_plugin ps ?c] =>
    destruct (fold_add_plugin ps c) as (Hn & _ & Hf & Hs & _) end.
  rewrite Hn, Hf, Hs. cbn [cmdName cmdFlags cmdSubcommands app].
  repeat split.
  apply Forall_forall. intros p Hp. split.
  - intros f Hfl. apply elem_of_app. right.
    apply (subseteq_concat (plugin_Flags p)); [|exact Hfl].
    apply list_elem_of_fmap. eauto.
  - apply subseteq_concat. apply list_elem_of_fmap. eauto.
Qed.

(** Two plugins contributing the same flag: it appears twice. *)
Example Commands_keeps_duplicates :
  map (fun c => map cli.flagName (cmdFlags c))
      (Commands world_ok [plugin_a; plugin_b; plugin_a] [])
  = [["address"; "router_address"; "network_address"; "a_flag"; "b_flag"; "a_flag"]].
Proof. reflexivity. Qed.

(** ** The service name *)

(** C9: [run] looks up the string flag [server_name], which is not one of
    the three base flags of the [server] command; a non-empty value becomes
    the service name, and with an empty value the name stays
    ["go.micro.server"]; the service is created under the resulting name. *)
Theorem server_name_overrides_name
    (w : World) (ps : list Plugin) (ctx : cli.Context) :
  ("server_name" ∉ map cli.flagName base_flags) ∧
  CtxString "server_name" ∈ calls w ps ctx ∧
  (cli.String ctx "server_name" ≠ "" →
     Name (resolved w ps ctx) = cli.String ctx "server_name") ∧
  (cli.String ctx "server_name" = "" →
     Name (resolved w ps ctx) = "go.micro.server") ∧
  ∃ address ttl interval,
    List.filter is_NewService (calls w ps ctx)
      = [MicroNewService (Name (resolved w ps ctx)) address ttl interval].
Proof.
  split; [cbn; rewrite !elem_of_cons, elem_of_nil; intuition discriminate|].
  split.
  { rewrite calls_eq, elem_of_cons, !elem_of_app.
    right; right; left. unfold resolve_calls. apply elem_of_cons. now left. }
  rewrite filter_calls by reflexivity.
  rewrite (filter_none is_NewService (lifecycle_calls w))
    by (apply lifecycle_calls_class; reflexivity).
  rewrite resolved_eq. unfold resolve_globals at 1 2. cbn [Name defaults].
  split; [|split].
  - intros Hne. now rewrite (proj2 (nonempty_true _) Hne).
  - intros He. now rewrite (proj2 (nonempty_false _) He).
  - cbn. eauto.
Qed.

Lemma server_name_overrides_name_witness :
  Name (resolved world_ok [plugin_a] ctx_server_name) = "go.micro.edge" ∧
  Name (resolved world_ok [plugin_a] ctx_empty) = "go.micro.server".
Proof.
  destruct (server_name_overrides_name world_ok [plugin_a] ctx_server_name)
    as (_ & _ & Hset & _).
  destruct (server_name_overrides_name world_ok [plugin_a] ctx_empty)
    as (_ & _ & _ & Hunset & _).
  split; [apply Hset; discriminate | apply Hunset; reflexivity].
Defined.

(** ** What the command-line layer observes *)

(** C10: the [Action] of the [server] command never hands an error to the
    command-line layer.  It returns [nil] when the router starts, the run
    loop returns and the router stops, all without error; on a failure of
    any of the three the process exits with status 1 inside [run] and the
    action does not return at all. *)
Theorem action_returns_nil
    (w : World) (ps : list Plugin) (options : list MicroOption) :
  ∃ command,
    Commands w ps options = [command] ∧
    ∀ (ctx : cli.Context) (s : State),
      fst (cmdAction command ctx s)
        = match router_Start w, service_Run w, router_Stop w with
          | None, None, None => Ret None
          | _, _, _ => Exited 1
          end ∧
      ∀ e, fst (cmdAction command ctx s) ≠ Ret (Some e).
Proof.
  eexists. split; [reflexivity|]. intros ctx [g l].
  match goal with |- context [fold_left add_plugin ps ?c] =>
    destruct (fold_add_plugin ps c) as (_ & _ & _ & _ & Ha) end.
  rewrite Ha. cbn [cmdAction]. unfold action.
  assert (Hrun := run_eq w ps ctx options g l).
  unfold bind. rewrite Hrun. unfold lifecycle_outcome, ret.
  destruct (router_Start w), (service_Run w), (router_Stop w); cbn;
    split; (reflexivity || (intros e; discriminate)).
Qed.

(** ** Further properties of [run] *)

Lemma count_app (P : Call → bool) (l1 l2 : list Call) :
  count P (l1 ++ l2) = (count P l1 + count P l2)%nat.
Proof. unfold count. now rewrite List.filter_app, length_app. Qed.

Lemma count_none (P : Call → bool) (l : list Call) :
  Forall (fun c => P c = false) l → count P l = 0%nat.
Proof. intros H. unfold count. now rewrite filter_none. Qed.

(** The ledger of [run] up to the call of the router's [Start]. *)
Lemma calls_until_start (w : World) (ps : list Plugin) (ctx : cli.Context) :
  ∃ tl,
    lifecycle_calls w = LogInfo "starting micro server" :: RouterStart :: tl ∧
    calls w ps ctx
    = (LogInit "server"
         :: map (fun p => PluginInit (plugin_String p)) ps
         ++ resolve_calls ctx
         ++ construct_calls w ctx (resolve_globals ctx defaults)
         ++ [LogInfo "starting micro server"])
      ++ RouterStart :: tl.
Proof.
  rewrite calls_eq. unfold lifecycle_calls. eexists. split; [reflexivity|].
  generalize (map (fun p => PluginInit (plugin_String p)) ps) as inits,
    (resolve_calls ctx) as rc,
    (construct_calls w ctx (resolve_globals ctx defaults)) as cc.
  intros. cbn. rewrite <- !app_assoc. reflexivity.
Qed.

(** The components are built once each, in the order service, router,
    transport, server, from the resolved settings: the router gets the
    service's identity and registry, and router and transport get the same
    network id. *)
Theorem components_built_from_resolved
    (w : World) (ps : list Plugin) (ctx : cli.Context) :
  ∃ ttl interval,
    List.filter is_construct (calls w ps ctx)
    = [ MicroNewService (Name (resolved w ps ctx)) (Address (resolved w ps ctx))
          ttl interval;
        RouterNewRouter (server_Id w) (Router (resolved w ps ctx))
          (Network (resolved w ps ctx)) (client_Registry w);
        GrpcNewTransport (Network (resolved w ps ctx));
        ServerNewServer ].
Proof.
  rewrite filter_calls by reflexivity. rewrite resolved_eq.
  rewrite (filter_none is_construct (lifecycle_calls w))
    by (apply lifecycle_calls_class; reflexivity).
  cbn. eauto.
Qed.

(** Whatever the flags, the plugins and the collaborators' answers, the
    router's [Start] is called exactly once, after every component has been
    built and before any call of the run loop or of the router's [Stop]. *)
Theorem router_started_once
    (w : World) (ps : list Plugin) (ctx : cli.Context) :
  count is_start (calls w ps ctx) = 1%nat ∧
  all_before is_construct is_start (calls w ps ctx) ∧
  all_before is_start is_run (calls w ps ctx) ∧
  all_before is_start is_stop (calls w ps ctx).
Proof.
  assert (Hpre : ∀ P : Call → bool,
            P (LogInit "server") = false → (∀ n, P (PluginInit n) = false) →
            (∀ k, P (CtxString k) = false) → (∀ k, P (CtxInt k) = false) →
            (∀ m, P (LogInfo m) = false) →
            (∀ a b c d, P (MicroNewService a b c d) = false) →
            (∀ a b c d, P (RouterNewRouter a b c d) = false) →
            (∀ a, P (GrpcNewTransport a) = false) → P ServerNewServer = false →
            Forall (fun c => P c = false)
              (LogInit "server"
                 :: map (fun p => PluginInit (plugin_String p)) ps
                 ++ resolve_calls ctx
                 ++ construct_calls w ctx (resolve_globals ctx defaults)
                 ++ [LogInfo "starting micro server"])).
  { intros P H0 H1 H2 H3 H4 H5 H6 H7 H8. constructor; [exact H0|].
    rewrite !Forall_app. split; [now apply init_calls_class|].
    split; [now apply resolve_calls_class|].
    split; repeat constructor; auto. }
  split.
  { unfold count. rewrite filter_calls by reflexivity.
    unfold lifecycle_calls.
    destruct (router_Start w), (service_Run w), (router_Stop w); reflexivity. }
  destruct (calls_until_start w ps ctx) as (tl & Htl & ->).
  assert (Ftl : Forall (fun c => is_start c = false) tl).
  { unfold lifecycle_calls in Htl. injection Htl as <-.
    destruct (router_Start w), (service_Run w), (router_Stop w);
      repeat constructor. }
  split; [|split].
  - apply all_before_app.
    + apply Hpre; intros; reflexivity.
    + (* no component is built from [Start] on *)
      constructor; [reflexivity|].
      unfold lifecycle_calls in Htl. injection Htl as <-.
      destruct (router_Start w), (service_Run w), (router_Stop w);
        repeat constructor.
  - change (?pre ++ RouterStart :: tl) with (pre ++ [RouterStart] ++ tl).
    rewrite app_assoc. apply all_before_app; [|exact Ftl].
    rewrite Forall_app. split; [|repeat constructor].
    apply Hpre; intros; reflexivity.
  - change (?pre ++ RouterStart :: tl) with (pre ++ [RouterStart] ++ tl).
    rewrite app_assoc. apply all_before_app; [|exact Ftl].
    rewrite Forall_app. split; [|repeat constructor].
    apply Hpre; intros; reflexivity.
Qed.

(** The run loop is entered exactly when the router started, and the router
    is stopped exactly when it started and the run loop returned without
    error; neither is ever called twice. *)
Theorem run_and_stop_counts
    (w : World) (ps : list Plugin) (ctx : cli.Context) :
  count is_run (calls w ps ctx)
    = match router_Start w with None => 1%nat | Some _ => 0%nat end ∧
  count is_stop (calls w ps ctx)
    = match router_Start w, service_Run w with
      | None, None => 1%nat
      | _, _ => 0%nat
      end ∧
  List.filter is_lifecycle (calls w ps ctx)
    = match router_Start w, service_Run w with
      | Some _, _ => [RouterStart]
      | None, Some _ => [RouterStart; ServiceRun]
      | None, None => [RouterStart; ServiceRun; RouterStop]
      end.
Proof.
  unfold count. rewrite !filter_calls by reflexivity.
  unfold lifecycle_calls.
  destruct (router_Start w), (service_Run w), (router_Stop w);
    repeat split; reflexivity.
Qed.

(** [run] either returns or exits with status 1.  When it exits, exactly one
    error has been logged and it is the call just before the one call of
    [os.Exit], which is the last call; when it returns, no error has been
    logged and [os.Exit] has not been called. *)
Theorem exit_is_logged
    (w : World) (ps : list Plugin) (ctx : cli.Context) :
  (outcome w ps ctx = Ret tt ∨ outcome w ps ctx = Exited 1) ∧
  (outcome w ps ctx = Exited 1 →
     ∃ pre msg,
       calls w ps ctx = pre ++ [LogErrorf msg; OsExit 1] ∧
       count is_errorf pre = 0%nat ∧ count is_exit pre = 0%nat) ∧
  (outcome w ps ctx = Ret tt →
     count is_errorf (calls w ps ctx) = 0%nat ∧
     count is_exit (calls w ps ctx) = 0%nat ∧
     last (calls w ps ctx) = Some (LogInfo "successfully stopped")).
Proof.
  rewrite outcome_eq, last_calls.
  destruct (calls_until_start w ps ctx) as (tl & Htl & Hcalls).
  assert (Hpre : ∀ P : Call → bool,
            P (LogInit "server") = false → (∀ n, P (PluginInit n) = false) →
            (∀ k, P (CtxString k) = false) → (∀ k, P (CtxInt k) = false) →
            (∀ m, P (LogInfo m) = false) →
            (∀ a b c d, P (MicroNewService a b c d) = false) →
            (∀ a b c d, P (RouterNewRouter a b c d) = false) →
            (∀ a, P (GrpcNewTransport a) = false) → P ServerNewServer = false →
            count P (LogInit "server"
                 :: map (fun p => PluginInit (plugin_String p)) ps
                 ++ resolve_calls ctx
                 ++ construct_calls w ctx (resolve_globals ctx defaults)
                 ++ [LogInfo "starting micro server"]) = 0%nat).
  { intros P H0 H1 H2 H3 H4 H5 H6 H7 H8. apply count_none.
    constructor; [exact H0|].
    rewrite !Forall_app. split; [now apply init_calls_class|].
    split; [now apply resolve_calls_class|].
    split; repeat constructor; auto. }
  rewrite Hcalls. clear Hcalls.
  set (pre := LogInit "server" :: _) in *.
  unfold lifecycle_outcome. unfold lifecycle_calls in *. injection Htl as <-.
  assert (Hfound : ∀ mid msg,
            ∃ pre' msg',
              pre ++ RouterStart :: mid ++ [LogErrorf msg; OsExit 1]
              = pre' ++ [LogErrorf msg'; OsExit 1] ∧
              count is_errorf pre' = count is_errorf mid ∧
              count is_exit pre' = count is_exit mid).
  { intros mid msg. exists (pre ++ RouterStart :: mid), msg.
    rewrite <- !app_assoc. split; [reflexivity|].
    change (pre ++ RouterStart :: mid) with (pre ++ [RouterStart] ++ mid).
    rewrite !count_app, !Hpre by reflexivity. split; reflexivity. }
  split; [destruct (router_Start w), (service_Run w), (router_Stop w); auto|].
  destruct (router_Start w) as [e1|]; [|destruct (service_Run w) as [e2|];
    [|destruct (router_Stop w) as [e3|]]].
  - split; [intros _|intros; discriminate].
    destruct (Hfound [] ("failed to start: " +:+ e1)) as (p & m & E & ? & ?).
    exists p, m. rewrite <- E. auto.
  - split; [intros _|intros; discriminate].
    destruct (Hfound [LogInfo "successfully started"; ServiceRun]
                ("failed with error " +:+ e2)) as (p & m & E & ? & ?).
    exists p, m. rewrite <- E. auto.
  - split; [intros _|intros; discriminate].
    destruct (Hfound [LogInfo "successfully started"; ServiceRun;
                      LogInfo "stopping server"; RouterStop]
                ("failed to stop: " +:+ ("failed to stop router: " +:+ e3)))
      as (p & m & E & ? & ?).
    exists p, m. rewrite <- E. auto.
  - split; [intros; discriminate|intros _].
    rewrite !count_app, !Hpre by reflexivity. repeat split; reflexivity.
Qed.

Lemma exit_is_logged_witness :
  (∃ pre msg,
     calls world_run_fails [plugin_a] ctx_empty = pre ++ [LogErrorf msg; OsExit 1] ∧
     count is_errorf pre = 0%nat ∧ count is_exit pre = 0%nat) ∧
  count is_errorf (calls world_ok [plugin_a] ctx_empty) = 0%nat.
Proof.
  destruct (exit_is_logged world_run_fails [plugin_a] ctx_empty) as (_ & Hexit & _).
  destruct (exit_is_logged world_ok [plugin_a] ctx_empty) as (_ & _ & Hret).
  split; [apply Hexit; reflexivity | apply Hret; reflexivity].
Defined.

(** When the router starts, the run loop returns and the router stops, all
    without error, [run] returns having logged exactly the four progress
    lines, in order. *)
Theorem success_log
    (w : World) (ps : list Plugin) (ctx : cli.Context)
    (Hstart : router_Start w = None) (Hrun : service_Run w = None)
    (Hstop : router_Stop w = None) :
  outcome w ps ctx = Ret tt ∧
  List.filter is_log (calls w ps ctx)
    = [ LogInfo "starting micro server"; LogInfo "successfully started";
        LogInfo "stopping server"; LogInfo "successfully stopped" ].
Proof.
  rewrite outcome_eq, filter_calls by reflexivity.
  unfold lifecycle_outcome, lifecycle_calls. rewrite Hstart, Hrun, Hstop.
  split; reflexivity.
Qed.

Lemma success_log_witness :
  List.filter is_log (calls world_ok [plugin_a; plugin_b] ctx_address)
    = [ LogInfo "starting micro server"; LogInfo "successfully started";
        LogInfo "stopping server"; LogInfo "successfully stopped" ].
Proof.
  exact (proj2 (success_log world_ok [plugin_a; plugin_b] ctx_address
                  eq_refl eq_refl eq_refl)).
Defined.

(** What a plugin's [Init] returns is discarded: two lists of plugins with
    the same names, in the same order, make [run] behave the same whatever
    their [Init] hooks return and whatever they contribute. *)
Theorem init_result_discarded
    (w : World) (ps ps' : list Plugin) (ctx : cli.Context)
    (options : list MicroOption) (s : State)
    (Hnames : map plugin_String ps = map plugin_String ps') :
  run w ps ctx options s = run w ps' ctx options s.
Proof.
  destruct s as [g l]. rewrite !run_eq.
  rewrite <- (map_map plugin_String PluginInit ps).
  rewrite <- (map_map plugin_String PluginInit ps').
  now rewrite Hnames.
Qed.

Lemma init_result_discarded_witness :
  plugin_Init plugin_b ctx_empty = Some "b: init failed" ∧
  plugin_Init plugin_b_quiet ctx_empty = None ∧
  run world_ok [plugin_a; plugin_b] ctx_empty [] boot
  = run world_ok [plugin_a; plugin_b_quiet] ctx_empty [] boot.
Proof.
  split; [reflexivity|]. split; [reflexivity|].
  apply (init_result_discarded world_ok [plugin_a; plugin_b]
           [plugin_a; plugin_b_quiet] ctx_empty [] boot).
  reflexivity.
Defined.

(** ** The package-level variables across invocations *)



(** The flag [address] is a base flag of the command, and [run] tests and
    reads it under that name: a non-empty value becomes the bind address the
    service is created with, an empty one leaves the default [":8087"]. *)
Theorem address_override
    (w : World) (ps : list Plugin) (ctx : cli.Context) :
  "address" ∈ map cli.flagName base_flags ∧
  (cli.String ctx "address" ≠ "" →
     Address (resolved w ps ctx) = cli.String ctx "address") ∧
  (cli.String ctx "address" = "" → Address (resolved w ps ctx) = ":8087") ∧
  ∃ name ttl interval,
    List.filter is_NewService (calls w ps ctx)
    = [MicroNewService name (Address (resolved w ps ctx)) ttl interval].
Proof.
  split; [cbn; apply elem_of_cons; now left|].
  rewrite filter_calls by reflexivity.
  rewrite (filter_none is_NewService (lifecycle_calls w))
    by (apply lifecycle_calls_class; reflexivity).
  rewrite resolved_eq. unfold resolve_globals at 1 2. cbn [Address defaults].
  split; [|split].
  - intros Hne. now rewrite (proj2 (nonempty_true _) Hne).
  - intros He. now rewrite (proj2 (nonempty_false _) He).
  - cbn. eauto.
Qed.

Lemma address_override_witness :
  Address (resolved world_ok [plugin_a] ctx_address) = "127.0.0.1:9000" ∧
  Address (resolved world_ok [plugin_a] ctx_server_name) = ":8087".
Proof.
  destruct (address_override world_ok [plugin_a] ctx_address) as (_ & Hset & _).
  destruct (address_override world_ok [plugin_a] ctx_server_name)
    as (_ & _ & Hunset & _).
  split; [apply Hset; discriminate | apply Hunset; reflexivity].
Defined.

(** ** Durations in general *)

(** Whatever the integer flags hold, the TTL and the interval the service is
    created with are [int64] values, equal to the flag's value times
    1000000000 modulo 2^64. *)
Theorem registration_durations_wrap
    (w : World) (ps : list Plugin) (ctx : cli.Context) :
  ∃ name address ttl interval,
    List.filter is_NewService (calls w ps ctx)
      = [MicroNewService name address ttl interval] ∧
    (- 2 ^ 63 ≤ ttl < 2 ^ 63)%Z ∧
    (- 2 ^ 63 ≤ interval < 2 ^ 63)%Z ∧
    (ttl `mod` 2 ^ 64
       = (cli.Int ctx "register_ttl" * 1000000000) `mod` 2 ^ 64)%Z ∧
    (interval `mod` 2 ^ 64
       = (cli.Int ctx "register_interval" * 1000000000) `mod` 2 ^ 64)%Z.
Proof.
  rewrite filter_calls by reflexivity.
  rewrite (filter_none is_NewService (lifecycle_calls w))
    by (apply lifecycle_calls_class; reflexivity).
  cbn [construct_calls List.filter is_NewService app].
  do 4 eexists. split; [reflexivity|].
  assert (Hmul : ∀ n, (time.mul (time.Duration n) time.Second `mod` 2 ^ 64
                       = (n * 1000000000) `mod` 2 ^ 64)%Z).
  { intros n. unfold time.mul, time.Duration, time.Second, time.Nanosecond.
    rewrite wrap64_mod, Z.mul_1_r, <- Zmult_mod_idemp_l, wrap64_mod.
    now rewrite Zmult_mod_idemp_l. }
  repeat split; try apply wrap64_range; apply Hmul.
Qed.

(** ** Extending the plugin list *)

(** Registering further plugins only appends to the command: the flags and
    sub-commands it had keep their places, the base flags always come
    first, and with no plugin at all the command has the three base flags
    and no sub-command. *)
Theorem Commands_extend
    (w : World) (ps qs : list Plugin) (options : list MicroOption) :
  ∃ command command' bare,
    Commands w ps options = [command] ∧
    Commands w (ps ++ qs) options = [command'] ∧
    Commands w [] options = [bare] ∧
    cmdFlags command' = cmdFlags command ++ concat (map plugin_Flags qs) ∧
    cmdSubcommands command'
      = cmdSubcommands command ++ concat (map plugin_Commands qs) ∧
    cmdFlags bare = base_flags ∧ cmdSubcommands bare = [] ∧
    cmdFlags bare `prefix_of` cmdFlags command ∧
    length (cmdFlags command')
      = (3 + length (concat (map plugin_Flags (ps ++ qs))))%nat.
Proof.
  do 3 eexists. split; [reflexivity|]. split; [reflexivity|].
  split; [reflexivity|].
  unfold Commands. cbn [fold_left].
  repeat match goal with |- context [fold_left add_plugin ?l ?c] =>
    destruct (fold_add_plugin l c) as (_ & _ & -> & -> & _) end.
  cbn [cmdFlags cmdSubcommands app].
  rewrite !map_app, !concat_app, !length_app, app_assoc.
  repeat split. now exists (concat (map plugin_Flags ps)).
Qed.
